(** * The template factory of angular-detour ([$templateFactory])

    A shallow embedding of [$TemplateFactory] from
    [samples/2-lazy-components-runtime/js/main.js]: the four resolution
    strategies [fromString], [fromUrl], [fromProvider], [fromService] and
    the dispatcher [fromConfig].

    The factory is glue between the caller and three framework services.
    JavaScript values are an inductive type, the calls that leave the
    factory (user functions, [$http.get], [$injector]) are the events of a
    small program monad, and a thrown exception ends the program. *)

From stdpp Require Import base gmap strings list.
From Stdlib Require Import ZArith.

Set Warnings "-register-all".

(** ** JavaScript values *)

(** The one function the factory hands to a promise:
    [function(response) { return response.data; }]. *)
Inductive closure : Type :=
| ResponseData.

(** A promise is either one the framework made (an opaque handle) or one
    derived from another promise by [.then(onFulfilled)]. *)
Inductive promise : Type :=
| PHost (h : nat)
| PThen (p : promise) (onFulfilled : closure).

(** Plain data, functions and promises.  An object is the finite map of
    its data properties.  A function is a handle that only the host can
    run, together with the properties it carries as an object.  Numbers
    are the integral ones. *)
Inductive value : Type :=
| VUndefined
| VNull
| VBool (b : bool)
| VNum (n : Z)
| VStr (s : string)
| VObj (fields : gmap string value)
| VArr (items : list value)
| VFun (f : string) (fields : gmap string value)
| VPromise (p : promise)
| VError (name : string).

(** The result of evaluating something that may throw. *)
Inductive completion (A : Type) : Type :=
| Normal (a : A)
| Thrown (e : value).
Arguments Normal {A} a.
Arguments Thrown {A} e.

Definition TypeError : value := VError "TypeError".

(** [angular.isDefined(v)]: [typeof v !== 'undefined']. *)
Definition isDefined (v : value) : bool :=
  match v with
  | VUndefined => false
  | _ => true
  end.

(** [angular.isFunction(v)]: [typeof v === 'function']. *)
Definition isFunction (v : value) : bool :=
  match v with
  | VFun _ _ => true
  | _ => false
  end.

(** [v == null]: loose equality with [null] holds of [null] and
    [undefined] only. *)
Definition looseNull (v : value) : bool :=
  match v with
  | VUndefined | VNull => true
  | _ => false
  end.

(** ToBoolean, as used by [||]. *)
Definition truthy (v : value) : bool :=
  match v with
  | VUndefined | VNull => false
  | VBool b => b
  | VNum n => negb (n =? 0)%Z
  | VStr s => negb (String.eqb s "")
  | VObj _ | VArr _ | VFun _ _ | VPromise _ | VError _ => true
  end.

(** [a || b] on values that are already evaluated. *)
Definition or_else (a b : value) : value :=
  if truthy a then a else b.

(** The own property [k] of an object, [undefined] when it has none. *)
Definition field (o : gmap string value) (k : string) : value :=
  default VUndefined (o !! k).

(** The property read [v.k].  Reading from [null] or [undefined] throws a
    TypeError; objects and functions answer with their property; the
    other values (primitives, arrays, promises, errors) have none of the
    properties this file reads. *)
Definition get (v : value) (k : string) : completion value :=
  match v with
  | VUndefined | VNull => Thrown TypeError
  | VObj o | VFun _ o => Normal (field o k)
  | _ => Normal VUndefined
  end.

(** Running a [closure] on its argument. *)
Definition closure_apply (c : closure) (arg : value) : completion value :=
  match c with
  | ResponseData => get arg "data"
  end.

(** How a promise ends. *)
Inductive settlement : Type :=
| Fulfilled (v : value)
| Rejected (reason : value).

(** What the framework takes for a promise when a callback returns it: a
    promise, or any other value that has a [then]. *)
Definition thenable (v : value) : bool :=
  match v with
  | VPromise _ => true
  | _ =>
      match get v "then" with
      | Normal t => truthy t
      | Thrown _ => false
      end
  end.

(** Resolving a promise with [r]: it follows [r] when [r] is a promise and
    is fulfilled with [r] when [r] is not thenable.  What becomes of a
    thenable that is not a promise is up to the code behind its [then],
    and is left open. *)
Definition resolve_with (follow : promise -> option settlement) (r : value)
  : option settlement :=
  match r with
  | VPromise q => follow q
  | _ => if thenable r then None else Some (Fulfilled r)
  end.

(** The end of a promise, given the ends of the framework's promises.
    [p.then(f)] passes a rejection of [p] on, is rejected with what [f]
    throws, and is resolved with what [f] returns when [p] is fulfilled.
    Every [.then] on the way, and every promise followed, takes one unit
    of [fuel]; [None] is a promise whose end is not reached. *)
Fixpoint settle (fuel : nat) (host : nat -> settlement) (p : promise)
  : option settlement :=
  match p with
  | PHost h => Some (host h)
  | PThen q f =>
      match fuel with
      | 0 => None
      | S fuel' =>
          match settle fuel' host q with
          | Some (Fulfilled v) =>
              match closure_apply f v with
              | Normal r => resolve_with (settle fuel' host) r
              | Thrown e => Some (Rejected e)
              end
          | Some (Rejected e) => Some (Rejected e)
          | None => None
          end
      end
  end.

(** ** Calls to the host *)

(** What the factory asks of its environment, indexed by the type of the
    answer. *)
Inductive event : Type -> Type :=
| Call (f : string) (this : value) (args : list value) : event value
| HttpGet (url : value) (config : value) : event promise
| InjectorInvoke (fn : value) (self : value) (locals : value) : event value
| InjectorGet (name : value) : event value.

(** Programs: return, throw, or ask the host and go on with the answer. *)
Inductive prog (A : Type) : Type :=
| Ret (a : A)
| Throw (e : value)
| Vis {X : Type} (ev : event X) (k : X -> prog A).
Arguments Ret {A} a.
Arguments Throw {A} e.
Arguments Vis {A X} ev k.

Fixpoint bind {A B : Type} (p : prog A) (f : A -> prog B) : prog B :=
  match p with
  | Ret a => f a
  | Throw e => Throw e
  | Vis ev k => Vis ev (fun x => bind (k x) f)
  end.

Notation "'let*' x ':=' p 'in' q" :=
  (bind p (fun x => q))
  (at level 10, x name, p at level 100, q at level 200, only parsing).

Definition trigger {X : Type} (ev : event X) : prog X :=
  Vis ev Ret.

Definition lift {A : Type} (c : completion A) : prog A :=
  match c with
  | Normal a => Ret a
  | Thrown e => Throw e
  end.

(** [f.call(this, ...args)]: only functions can be called.  A plain call
    [f(...args)] passes [undefined] for [this]. *)
Definition call (f this : value) (args : list value) : prog value :=
  match f with
  | VFun name _ => trigger (Call name this args)
  | _ => Throw TypeError
  end.

(** [obj.name(...args)]: read the property, then call it on [obj]. *)
Definition call_method (obj : value) (name : string) (args : list value)
  : prog value :=
  let* m := lift (get obj name) in
  call m obj args.

(** [$injector.invoke([name, fn])] with neither [self] nor [locals]: the
    injector looks the named dependency up and calls [fn] with it. *)
Definition injector_invoke_annotated (name : value)
  (fn : value -> prog value) : prog value :=
  let* service := trigger (InjectorGet name) in
  fn service.

(** [promise.then(onFulfilled)]. *)
Definition then_ (p : promise) (onFulfilled : closure) : value :=
  VPromise (PThen p onFulfilled).

(** ** Running a program against a host *)

(** A host answers every event, normally or by throwing, and may change
    its own state. *)
Definition handler (S : Type) : Type :=
  forall X : Type, event X -> S -> completion X * S.

(** An event that was sent to the host. *)
Inductive performed : Type :=
| Performed {X : Type} (ev : event X).

Definition is_http_get (c : performed) : bool :=
  match c with
  | Performed (HttpGet _ _) => true
  | Performed _ => false
  end.

(** The outcome of a run: the completion, the host's last state and the
    events performed, in order. *)
Record outcome (S A : Type) : Type := Outcome {
  result : completion A;
  final : S;
  trace : list performed
}.
Arguments Outcome {S A} result final trace.
Arguments result {S A} o.
Arguments final {S A} o.
Arguments trace {S A} o.

Fixpoint run {S A : Type} (h : handler S) (p : prog A) (s : S)
  : outcome S A :=
  match p with
  | Ret a => Outcome (Normal a) s []
  | Throw e => Outcome (Thrown e) s []
  | Vis ev k =>
      match h _ ev s with
      | (Normal x, s') =>
          let o := run h (k x) s' in
          Outcome (result o) (final o) (Performed ev :: trace o)
      | (Thrown e, s') => Outcome (Thrown e) s' [Performed ev]
      end
  end.

(** ** The factory *)

Section TemplateFactory.

(** [$templateCache], as injected into the constructor.  [$http] and
    [$injector] are reached through the events. *)
Variable templateCache : value.

(** [fromString(template, params)] *)
Definition fromString (template params : value) : prog value :=
  if isFunction template
  then call template VUndefined [params]
  else Ret template.

(** [fromUrl(url, params)] *)
Definition fromUrl (url params : value) : prog value :=
  let* url :=
    (if isFunction url
     then call url VUndefined [params]
     else Ret url) in
  if looseNull url
  then Ret VNull
  else
    let* pending :=
      trigger (HttpGet url (VObj {[ "cache" := templateCache ]})) in
    Ret (then_ pending ResponseData).

(** [fromProvider(provider, params, locals)] *)
Definition fromProvider (provider params locals : value) : prog value :=
  trigger (InjectorInvoke provider VNull
             (or_else locals (VObj {[ "params" := params ]}))).

(** [fromService(serviceName, params, locals)]:
    [$injector.invoke([serviceName, function(service) {
       return service.getTemplate(params, locals); }])] *)
Definition fromService (serviceName params locals : value) : prog value :=
  injector_invoke_annotated serviceName (fun service =>
    call_method service "getTemplate" [params; locals]).

(** [fromConfig(config, params, locals)].  The source reads a field once
    for the test and once more for the argument; a read of a data
    property gives the same value both times, so each is read once. *)
Definition fromConfig (config params locals : value) : prog value :=
  let* template := lift (get config "template") in
  if isDefined template then fromString template params else
  let* templateUrl := lift (get config "templateUrl") in
  if isDefined templateUrl then fromUrl templateUrl params else
  let* templateProvider := lift (get config "templateProvider") in
  if isDefined templateProvider
  then fromProvider templateProvider params locals else
  let* templateService := lift (get config "templateService") in
  if isDefined templateService
  then fromService templateService params locals else
  Ret VNull.

End TemplateFactory.

(** ** The resolution order, as the documentation words it *)

Inductive strategy : Type :=
| ByString
| ByUrl
| ByProvider
| ByService.

(** The fields of a configuration in the order they are searched, each
    with the strategy it stands for. *)
Definition priority : list (string * strategy) :=
  [ ("template", ByString);
    ("templateUrl", ByUrl);
    ("templateProvider", ByProvider);
    ("templateService", ByService) ].

(** The first field of [priority] that is defined on the configuration. *)
Definition first_defined (o : gmap string value)
  : option (string * strategy) :=
  List.find (fun e => isDefined (field o e.1)) priority.

Definition apply_strategy (templateCache : value) (st : strategy)
  (arg params locals : value) : prog value :=
  match st with
  | ByString => fromString arg params
  | ByUrl => fromUrl templateCache arg params
  | ByProvider => fromProvider arg params locals
  | ByService => fromService arg params locals
  end.

(** First defined wins; nothing defined gives [null]. *)
Definition resolve_by_priority (templateCache : value)
  (o : gmap string value) (params locals : value) : prog value :=
  match first_defined o with
  | Some (k, st) => apply_strategy templateCache st (field o k) params locals
  | None => Ret VNull
  end.

(** ** Vocabulary of the statements *)

(** The first step of [fromUrl], run on its own: [url(params)] when [url]
    is a function, [url] itself otherwise. *)
Definition resolve_url {S : Type} (h : handler S) (url params : value)
  (s : S) : outcome S value :=
  run h (if isFunction url
         then call url VUndefined [params]
         else Ret url) s.

(** The options [fromUrl] passes to [$http.get]. *)
Definition cached (templateCache : value) : value :=
  VObj {[ "cache" := templateCache ]}.

(** The locals [fromProvider] builds when it is given none. *)
Definition default_locals (params : value) : value :=
  VObj {[ "params" := params ]}.

(** ** A small host to run examples on *)

(** It counts the calls it gets.  The function ["nothing"] returns [null],
    ["missing"] returns [undefined], every other function returns its own
    name; every fetch gives promise 7; every service has a [getTemplate]
    method. *)
Definition sample_host : handler nat :=
  fun X ev n =>
    match ev in event T return completion T * nat with
    | Call f _ _ =>
        (Normal (if String.eqb f "nothing" then VNull
                 else if String.eqb f "missing" then VUndefined
                 else VStr f), S n)
    | HttpGet _ _ => (Normal (PHost 7), S n)
    | InjectorInvoke _ _ _ => (Normal (VStr "<provided/>"), S n)
    | InjectorGet _ =>
        (Normal (VObj {[ "getTemplate" := VFun "getTemplate" ∅ ]}), S n)
    end.

Definition sample_cache : value := VObj ∅.

Definition sample_params : value := VObj {[ "id" := VNum 7 ]}.

(** ** Sorting the events of a trace *)

(** A call of a user function. *)
Definition is_call (c : performed) : bool :=
  match c with
  | Performed (Call _ _ _) => true
  | Performed _ => false
  end.

(** A request to [$injector]. *)
Definition is_injection (c : performed) : bool :=
  match c with
  | Performed (InjectorInvoke _ _ _) | Performed (InjectorGet _) => true
  | Performed _ => false
  end.

(** The values that are not objects: [typeof] gives ["boolean"],
    ["number"] or ["string"]. *)
Definition isPrimitive (v : value) : bool :=
  match v with
  | VBool _ | VNum _ | VStr _ => true
  | _ => false
  end.

(** A host that counts its calls and gives one fixed answer to every fetch
    and another to everything else. *)
Definition constant_host (answer : completion value)
  (fetched : completion promise) : handler nat :=
  fun X ev n =>
    match ev in event T return completion T * nat with
    | HttpGet _ _ => (fetched, S n)
    | Call _ _ _ => (answer, S n)
    | InjectorInvoke _ _ _ => (answer, S n)
    | InjectorGet _ => (answer, S n)
    end.

Definition failure : value := VError "Error".

(** * Properties *)

(** ** Running programs *)

Lemma run_bind {S A B : Type} (h : handler S) (p : prog A)
  (f : A -> prog B) (s : S) :
  run h (bind p f) s =
    match result (run h p s) with
    | Normal a =>
        let o := run h (f a) (final (run h p s)) in
        Outcome (result o) (final o) (trace (run h p s) ++ trace o)
    | Thrown e => Outcome (Thrown e) (final (run h p s)) (trace (run h p s))
    end.
Proof.
  revert s. induction p as [a | e | X ev k IH]; intros s; simpl.
  - destruct (run h (f a) s); reflexivity.
  - reflexivity.
  - destruct (h X ev s) as [[x | e] s1]; simpl; [ | reflexivity].
    rewrite IH. destruct (result (run h (k x) s1)); reflexivity.
Qed.

Lemma run_trigger {S X : Type} (h : handler S) (ev : event X) (s : S) :
  run h (trigger ev) s = Outcome (h X ev s).1 (h X ev s).2 [Performed ev].
Proof.
  unfold trigger. simpl. destruct (h X ev s) as [[x | e] s1]; reflexivity.
Qed.

(** ** Promises *)

Lemma resolve_with_plain (follow : promise -> option settlement)
  (r : value) :
  thenable r = false -> resolve_with follow r = Some (Fulfilled r).
Proof.
  intros Hplain. destruct r; try discriminate; unfold resolve_with;
    rewrite Hplain; reflexivity.
Qed.

(** More fuel does not change an end that was reached. *)
Lemma settle_more_fuel (host : nat -> settlement) (fuel : nat) :
  forall (p : promise) (st : settlement),
    settle fuel host p = Some st -> settle (S fuel) host p = Some st.
Proof.
  induction fuel as [ | fuel IH]; intros p st Hst.
  - destruct p; [exact Hst | discriminate].
  - destruct p as [h0 | q f]; [exact Hst | ].
    change (settle (S fuel) host (PThen q f)) with
      (match settle fuel host q with
       | Some (Fulfilled v) =>
           match closure_apply f v with
           | Normal r => resolve_with (settle fuel host) r
           | Thrown e => Some (Rejected e)
           end
       | Some (Rejected e) => Some (Rejected e)
       | None => None
       end) in Hst.
    change (settle (S (S fuel)) host (PThen q f)) with
      (match settle (S fuel) host q with
       | Some (Fulfilled v) =>
           match closure_apply f v with
           | Normal r => resolve_with (settle (S fuel) host) r
           | Thrown e => Some (Rejected e)
           end
       | Some (Rejected e) => Some (Rejected e)
       | None => None
       end).
    destruct (settle fuel host q) as [[v | e] | ] eqn:Hq; try discriminate.
    + rewrite (IH q _ Hq). destruct (closure_apply f v) as [r | e];
        [ | exact Hst].
      destruct r; try exact Hst. apply IH. exact Hst.
    + rewrite (IH q _ Hq). exact Hst.
Qed.

(** A promise made by [.then] is a new promise. *)
Lemma then_is_new (p : promise) (f : closure) : PThen p f <> p.
Proof.
  induction p as [h0 | q IH g]; [discriminate | ].
  intros Heq. injection Heq as Hq Hg. subst g. exact (IH Hq).
Qed.

(** ** Reading a configuration *)

Lemma first_defined_template (o : gmap string value) :
  isDefined (field o "template") = true ->
  first_defined o = Some ("template", ByString).
Proof. intros H. unfold first_defined. simpl. rewrite H. reflexivity. Qed.

Lemma field_lookup (o : gmap string value) (k : string) (v : value) :
  o !! k = Some v -> field o k = v.
Proof. intros H. unfold field. rewrite H. reflexivity. Qed.

Lemma fromConfig_template (templateCache : value) (o : gmap string value)
  (params locals : value) :
  isDefined (field o "template") = true ->
  fromConfig templateCache (VObj o) params locals =
    fromString (field o "template") params.
Proof. intros H. unfold fromConfig. simpl. rewrite H. reflexivity. Qed.

(** ** The dispatcher *)

(** C1: on every configuration object [fromConfig] runs the strategy of
    the first defined field in the order template, templateUrl,
    templateProvider, templateService, whatever else is defined; with
    both template and templateUrl defined it runs the string strategy on
    the template. *)
Theorem fromConfig_first_defined_wins (templateCache : value)
  (o : gmap string value) (params locals : value) :
  fromConfig templateCache (VObj o) params locals =
    resolve_by_priority templateCache o params locals
  /\ (isDefined (field o "template") = true ->
      isDefined (field o "templateUrl") = true ->
      first_defined o = Some ("template", ByString) /\
      fromConfig templateCache (VObj o) params locals =
        fromString (field o "template") params).
Proof.
  split.
  - unfold fromConfig, resolve_by_priority, first_defined. simpl.
    destruct (isDefined (field o "template")); [reflexivity | ].
    destruct (isDefined (field o "templateUrl")); [reflexivity | ].
    destruct (isDefined (field o "templateProvider")); [reflexivity | ].
    destruct (isDefined (field o "templateService")); reflexivity.
  - intros Ht _. split.
    + apply first_defined_template, Ht.
    + apply fromConfig_template, Ht.
Qed.

Lemma fromConfig_first_defined_wins_witness :
  fromConfig sample_cache
    (VObj {[ "template" := VStr "<b>inline</b>";
             "templateUrl" := VStr "/partials/a.html" ]})
    sample_params VUndefined
  = Ret (VStr "<b>inline</b>").
Proof.
  refine (eq_trans
    (proj2 (proj2 (fromConfig_first_defined_wins sample_cache
       {[ "template" := VStr "<b>inline</b>";
          "templateUrl" := VStr "/partials/a.html" ]}
       sample_params VUndefined) _ _)) _);
    reflexivity.
Defined.

(** C7: when none of template, templateUrl, templateProvider and
    templateService is defined on the configuration object, [fromConfig]
    selects no strategy and is the program that returns [null]; run on any
    host it sends the host nothing (no call, no fetch, no injection) and
    leaves its state as it was. *)
Theorem fromConfig_nothing_configured (templateCache : value)
  (o : gmap string value) (params locals : value) :
  isDefined (field o "template") = false ->
  isDefined (field o "templateUrl") = false ->
  isDefined (field o "templateProvider") = false ->
  isDefined (field o "templateService") = false ->
  first_defined o = None /\
  fromConfig templateCache (VObj o) params locals = Ret VNull /\
  forall (S : Type) (h : handler S) (s : S),
    run h (fromConfig templateCache (VObj o) params locals) s =
      Outcome (Normal VNull) s [].
Proof.
  intros Ht Hu Hp Hs.
  assert (Hprog : fromConfig templateCache (VObj o) params locals = Ret VNull).
  { unfold fromConfig. simpl. rewrite Ht, Hu, Hp, Hs. reflexivity. }
  split; [ | split].
  - unfold first_defined. simpl. rewrite Ht, Hu, Hp, Hs. reflexivity.
  - exact Hprog.
  - intros S h s. rewrite Hprog. reflexivity.
Qed.

Lemma fromConfig_nothing_configured_witness :
  fromConfig sample_cache (VObj ∅) sample_params VUndefined = Ret VNull /\
  run sample_host (fromConfig sample_cache (VObj ∅) sample_params VUndefined) 0
    = Outcome (Normal VNull) 0 [].
Proof.
  pose proof (fromConfig_nothing_configured sample_cache ∅ sample_params
                VUndefined) as H.
  destruct H as (_ & Hprog & Hrun);
    [reflexivity | reflexivity | reflexivity | reflexivity | ].
  split; [exact Hprog | exact (Hrun nat sample_host 0)].
Defined.

(** C9: the dispatcher tests definedness, not truthiness.  A template
    field that is present but [null], or the empty string, still selects
    the string strategy, whatever the other three fields hold, and
    [fromConfig] returns [null], respectively the empty string, without
    asking the host anything. *)
Theorem fromConfig_falsy_template_selected (templateCache : value)
  (o : gmap string value) (params locals : value) :
  (o !! "template" = Some VNull ->
   first_defined o = Some ("template", ByString) /\
   fromConfig templateCache (VObj o) params locals = Ret VNull)
  /\
  (o !! "template" = Some (VStr "") ->
   first_defined o = Some ("template", ByString) /\
   fromConfig templateCache (VObj o) params locals = Ret (VStr "")).
Proof.
  split; intros Hlook; apply field_lookup in Hlook.
  - split.
    + apply first_defined_template. rewrite Hlook. reflexivity.
    + rewrite fromConfig_template by (rewrite Hlook; reflexivity).
      rewrite Hlook. reflexivity.
  - split.
    + apply first_defined_template. rewrite Hlook. reflexivity.
    + rewrite fromConfig_template by (rewrite Hlook; reflexivity).
      rewrite Hlook. reflexivity.
Qed.

Lemma fromConfig_falsy_template_selected_witness :
  fromConfig sample_cache
    (VObj {[ "template" := VNull;
             "templateUrl" := VStr "/partials/a.html";
             "templateProvider" := VFun "provider" ∅;
             "templateService" := VStr "templates" ]})
    sample_params VUndefined = Ret VNull
  /\
  fromConfig sample_cache
    (VObj {[ "template" := VStr "";
             "templateUrl" := VStr "/partials/a.html";
             "templateProvider" := VFun "provider" ∅;
             "templateService" := VStr "templates" ]})
    sample_params VUndefined = Ret (VStr "").
Proof.
  split.
  - exact (proj2 (proj1 (fromConfig_falsy_template_selected sample_cache
      {[ "template" := VNull;
         "templateUrl" := VStr "/partials/a.html";
         "templateProvider" := VFun "provider" ∅;
         "templateService" := VStr "templates" ]}
      sample_params VUndefined) eq_refl)).
  - exact (proj2 (proj2 (fromConfig_falsy_template_selected sample_cache
      {[ "template" := VStr "";
         "templateUrl" := VStr "/partials/a.html";
         "templateProvider" := VFun "provider" ∅;
         "templateService" := VStr "templates" ]}
      sample_params VUndefined) eq_refl)).
Defined.

(** ** The string strategy *)

(** C3: [fromString] returns a template that is not a function, a literal
    string in particular, unchanged, and so does [fromConfig] on a
    configuration whose template is that string; on a function it returns
    exactly what the call of that function with [params] as its one
    argument returns (or throws what it throws). *)
Theorem fromString_literal_or_call (templateCache : value)
  (params : value) :
  (forall text : string, fromString (VStr text) params = Ret (VStr text))
  /\
  (forall template : value,
     isFunction template = false ->
     fromString template params = Ret template)
  /\
  (forall (o : gmap string value) (text : string) (locals : value),
     o !! "template" = Some (VStr text) ->
     fromConfig templateCache (VObj o) params locals = Ret (VStr text))
  /\
  (forall (f : string) (fields : gmap string value),
     fromString (VFun f fields) params =
       trigger (Call f VUndefined [params]) /\
     forall (S : Type) (h : handler S) (s : S),
       let answer := h value (Call f VUndefined [params]) s in
       run h (fromString (VFun f fields) params) s =
         Outcome answer.1 answer.2 [Performed (Call f VUndefined [params])]).
Proof.
  split; [ | split; [ | split]].
  - reflexivity.
  - intros template Hfun. unfold fromString. rewrite Hfun. reflexivity.
  - intros o text locals Hlook. apply field_lookup in Hlook.
    rewrite fromConfig_template by (rewrite Hlook; reflexivity).
    rewrite Hlook. reflexivity.
  - intros f fields. split; [reflexivity | ].
    intros S h s. apply run_trigger.
Qed.

Lemma fromString_literal_or_call_witness :
  fromString (VNum 3) sample_params = Ret (VNum 3) /\
  fromConfig sample_cache (VObj {[ "template" := VStr "<p>hi</p>" ]})
    sample_params VUndefined = Ret (VStr "<p>hi</p>") /\
  result (run sample_host (fromString (VFun "tpl" ∅) sample_params) 0)
    = Normal (VStr "tpl").
Proof.
  pose proof (fromString_literal_or_call sample_cache sample_params)
    as (_ & Hlit & Hcfg & Hfun).
  split; [ | split].
  - exact (Hlit (VNum 3) eq_refl).
  - exact (Hcfg {[ "template" := VStr "<p>hi</p>" ]} "<p>hi</p>"
             VUndefined eq_refl).
  - destruct (Hfun "tpl" ∅) as [_ Hrun].
    rewrite (Hrun nat sample_host 0). reflexivity.
Defined.

(** ** The URL strategy *)

Lemma resolve_url_trace {S : Type} (h : handler S) (url params : value)
  (s : S) :
  filter (fun c => is_http_get c = true)
    (trace (resolve_url h url params s)) = [].
Proof.
  unfold resolve_url. destruct url; try reflexivity.
  simpl. destruct (h value (Call f VUndefined [params]) s) as [[x | e] s1];
    reflexivity.
Qed.

Lemma fromUrl_run {S : Type} (h : handler S) (templateCache : value)
  (url params : value) (s : S) :
  run h (fromUrl templateCache url params) s =
    match result (resolve_url h url params s) with
    | Normal u =>
        let o :=
          run h (if looseNull u
                 then Ret VNull
                 else let* pending :=
                        trigger (HttpGet u (cached templateCache)) in
                      Ret (then_ pending ResponseData))
            (final (resolve_url h url params s)) in
        Outcome (result o) (final o)
          (trace (resolve_url h url params s) ++ trace o)
    | Thrown e =>
        Outcome (Thrown e) (final (resolve_url h url params s))
          (trace (resolve_url h url params s))
    end.
Proof. unfold fromUrl. rewrite run_bind. reflexivity. Qed.

(** C4: [fromUrl] first puts [url(params)] in the place of [url] when
    [url] is a function; when the URL so obtained is [null], it returns
    [null], and the host has been asked nothing beyond that one call: no
    fetch is performed. *)
Theorem fromUrl_null_url (templateCache : value) (url params : value) :
  (forall (f : string) (fields : gmap string value),
     url = VFun f fields ->
     fromUrl templateCache url params =
       let* u := trigger (Call f VUndefined [params]) in
       if looseNull u
       then Ret VNull
       else let* pending := trigger (HttpGet u (cached templateCache)) in
            Ret (then_ pending ResponseData))
  /\
  (url = VNull -> fromUrl templateCache url params = Ret VNull)
  /\
  (forall (S : Type) (h : handler S) (s s1 : S) (t : list performed),
     resolve_url h url params s = Outcome (Normal VNull) s1 t ->
     run h (fromUrl templateCache url params) s = Outcome (Normal VNull) s1 t
     /\ filter (fun c => is_http_get c = true) t = []).
Proof.
  split; [ | split].
  - intros f fields ->. reflexivity.
  - intros ->. reflexivity.
  - intros S h s s1 t Hurl. split.
    + rewrite fromUrl_run, Hurl. simpl. rewrite app_nil_r. reflexivity.
    + pose proof (resolve_url_trace h url params s) as Ht.
      rewrite Hurl in Ht. exact Ht.
Qed.

Lemma fromUrl_null_url_witness :
  fromUrl sample_cache VNull sample_params = Ret VNull /\
  run sample_host (fromUrl sample_cache (VFun "nothing" ∅) sample_params) 0 =
    Outcome (Normal VNull) 1
      [Performed (Call "nothing" VUndefined [sample_params])].
Proof.
  pose proof (fromUrl_null_url sample_cache VNull sample_params)
    as (_ & Hnull & _).
  pose proof (fromUrl_null_url sample_cache (VFun "nothing" ∅) sample_params)
    as (_ & _ & Hrun).
  split.
  - exact (Hnull eq_refl).
  - exact (proj1 (Hrun nat sample_host 0 1
             [Performed (Call "nothing" VUndefined [sample_params])]
             eq_refl)).
Defined.

(** C10: the null test of [fromUrl] is [url == null], which [undefined]
    passes too.  When the URL obtained in the first step is [undefined]
    (a url function that returns [undefined], or [undefined] itself)
    [fromUrl] returns [null] and performs no fetch, exactly as it does
    for [null]. *)
Theorem fromUrl_undefined_url (templateCache : value) (url params : value)
  (S : Type) (h : handler S) (s s1 : S) (t : list performed) :
  resolve_url h url params s = Outcome (Normal VUndefined) s1 t ->
  fromUrl templateCache VUndefined params = fromUrl templateCache VNull params /\
  run h (fromUrl templateCache url params) s = Outcome (Normal VNull) s1 t /\
  filter (fun c => is_http_get c = true) t = [].
Proof.
  intros Hurl. split; [reflexivity | split].
  - rewrite fromUrl_run, Hurl. simpl. rewrite app_nil_r. reflexivity.
  - pose proof (resolve_url_trace h url params s) as Ht.
    rewrite Hurl in Ht. exact Ht.
Qed.

Lemma fromUrl_undefined_url_witness :
  run sample_host (fromUrl sample_cache (VFun "missing" ∅) sample_params) 0 =
    Outcome (Normal VNull) 1
      [Performed (Call "missing" VUndefined [sample_params])].
Proof.
  exact (proj1 (proj2 (fromUrl_undefined_url sample_cache (VFun "missing" ∅)
           sample_params nat sample_host 0 1
           [Performed (Call "missing" VUndefined [sample_params])]
           eq_refl))).
Defined.

(** C5: when the URL obtained in the first step is not null (it fails
    [url == null]) and the host answers the fetch with a promise,
    [fromUrl] sends the host exactly one [$http.get], for that URL and
    with the template cache as the [cache] option, and returns the promise
    derived from the host's by [.then]; once the host's promise is
    fulfilled with a response object, the returned promise is resolved
    with the [data] field of the response, not with the response: it is
    fulfilled with [data] when that is not thenable, and follows [data]
    when that is a promise. *)
Theorem fromUrl_fetches_once (templateCache : value) (url params : value)
  (St : Type) (h : handler St) (s s1 s2 : St) (t : list performed)
  (u : value) (pending : promise) :
  resolve_url h url params s = Outcome (Normal u) s1 t ->
  looseNull u = false ->
  h promise (HttpGet u (cached templateCache)) s1 = (Normal pending, s2) ->
  run h (fromUrl templateCache url params) s =
    Outcome (Normal (VPromise (PThen pending ResponseData))) s2
      (t ++ [Performed (HttpGet u (cached templateCache))])
  /\
  filter (fun c => is_http_get c = true)
    (trace (run h (fromUrl templateCache url params) s)) =
    [Performed (HttpGet u (cached templateCache))]
  /\
  get (cached templateCache) "cache" = Normal templateCache
  /\
  forall (fuel : nat) (host : nat -> settlement)
    (response : gmap string value),
    settle fuel host pending = Some (Fulfilled (VObj response)) ->
    (thenable (field response "data") = false ->
     settle (S fuel) host (PThen pending ResponseData) =
       Some (Fulfilled (field response "data")))
    /\
    (forall inner : promise,
       field response "data" = VPromise inner ->
       settle (S fuel) host (PThen pending ResponseData) =
         settle fuel host inner).
Proof.
  intros Hurl Hnn Hget.
  assert (Hrun : run h (fromUrl templateCache url params) s =
            Outcome (Normal (VPromise (PThen pending ResponseData))) s2
              (t ++ [Performed (HttpGet u (cached templateCache))])).
  { rewrite fromUrl_run, Hurl. simpl. rewrite Hnn. simpl.
    rewrite Hget. reflexivity. }
  split; [exact Hrun | split; [ | split]].
  - rewrite Hrun. simpl. rewrite filter_app.
    pose proof (resolve_url_trace h url params s) as Ht.
    rewrite Hurl in Ht. simpl in Ht. rewrite Ht. reflexivity.
  - reflexivity.
  - intros fuel host response Hful. cbn [settle]. rewrite Hful.
    cbn [closure_apply get]. split.
    + apply resolve_with_plain.
    + intros inner ->. reflexivity.
Qed.

Lemma fromUrl_fetches_once_witness :
  run sample_host
    (fromUrl sample_cache (VStr "/partials/a.html") sample_params) 0 =
    Outcome (Normal (VPromise (PThen (PHost 7) ResponseData))) 1
      [Performed (HttpGet (VStr "/partials/a.html") (cached sample_cache))].
Proof.
  exact (proj1 (fromUrl_fetches_once sample_cache (VStr "/partials/a.html")
           sample_params nat sample_host 0 0 1 [] (VStr "/partials/a.html")
           (PHost 7) eq_refl eq_refl eq_refl)).
Defined.

(** ** The provider strategy *)

(** C6: [fromProvider] sends the host one [$injector.invoke] of the
    provider, with [null] for [self]; the locals it supplies are [locals]
    when that is an object (any truthy value) and [{ params: params }]
    when [locals] is [undefined]; what the injector answers, a value or
    an exception, is what [fromProvider] returns. *)
Theorem fromProvider_invokes (provider params locals : value) :
  fromProvider provider params locals =
    trigger (InjectorInvoke provider VNull
               (or_else locals (default_locals params)))
  /\
  (forall o : gmap string value,
     locals = VObj o -> or_else locals (default_locals params) = locals)
  /\
  (truthy locals = true ->
     or_else locals (default_locals params) = locals)
  /\
  (locals = VUndefined ->
     or_else locals (default_locals params) = VObj {[ "params" := params ]})
  /\
  forall (S : Type) (h : handler S) (s : S),
    let invoke :=
      InjectorInvoke provider VNull
        (or_else locals (default_locals params)) in
    run h (fromProvider provider params locals) s =
      Outcome (h value invoke s).1 (h value invoke s).2 [Performed invoke].
Proof.
  split; [reflexivity | split; [ | split; [ | split]]].
  - intros o ->. reflexivity.
  - intros Ht. unfold or_else. rewrite Ht. reflexivity.
  - intros ->. reflexivity.
  - intros S h s. apply run_trigger.
Qed.

Lemma fromProvider_invokes_witness :
  fromProvider (VFun "provider" ∅) sample_params VUndefined =
    trigger (InjectorInvoke (VFun "provider" ∅) VNull
               (VObj {[ "params" := sample_params ]}))
  /\
  fromProvider (VFun "provider" ∅) sample_params (VObj {[ "x" := VNum 1 ]}) =
    trigger (InjectorInvoke (VFun "provider" ∅) VNull
               (VObj {[ "x" := VNum 1 ]})).
Proof.
  split.
  - pose proof (fromProvider_invokes (VFun "provider" ∅) sample_params
                  VUndefined) as (Hprog & _ & _ & Hdef & _).
    rewrite Hprog, (Hdef eq_refl). reflexivity.
  - pose proof (fromProvider_invokes (VFun "provider" ∅) sample_params
                  (VObj {[ "x" := VNum 1 ]})) as (Hprog & Hobj & _).
    rewrite Hprog, (Hobj _ eq_refl). reflexivity.
Defined.

(** ** The service strategy *)

(** C2: [fromService] has the injector look the named service up and
    calls the service's [getTemplate] method on it, returning what the
    method returns.  The arguments of that call are [params] and [locals]
    as they were given: when [locals] is [undefined] the method receives
    [undefined], not [{ params: params }]. *)
Theorem fromService_locals_not_defaulted (serviceName params locals : value)
  (S : Type) (h : handler S) (s s1 : S)
  (service : value) (getTemplate : string) (fields : gmap string value) :
  h value (InjectorGet serviceName) s = (Normal service, s1) ->
  get service "getTemplate" = Normal (VFun getTemplate fields) ->
  let method := Call getTemplate service [params; locals] in
  run h (fromService serviceName params locals) s =
    Outcome (h value method s1).1 (h value method s1).2
      [Performed (InjectorGet serviceName); Performed method]
  /\
  (locals = VUndefined ->
   method = Call getTemplate service [params; VUndefined] /\
   method <> Call getTemplate service [params; default_locals params]).
Proof.
  intros Hget Hm method. split.
  - unfold fromService, injector_invoke_annotated, call_method. simpl.
    rewrite Hget. simpl. rewrite Hm. simpl.
    fold method. destruct (h value method s1) as [[x | e] s2]; reflexivity.
  - intros ->. split; [reflexivity | ].
    unfold method, default_locals. intros Heq. inversion Heq.
Qed.

Lemma fromService_locals_not_defaulted_witness :
  trace (run sample_host
           (fromService (VStr "templates") sample_params VUndefined) 0) =
    [Performed (InjectorGet (VStr "templates"));
     Performed (Call "getTemplate"
                  (VObj {[ "getTemplate" := VFun "getTemplate" ∅ ]})
                  [sample_params; VUndefined])].
Proof.
  pose proof (fromService_locals_not_defaulted (VStr "templates")
                sample_params VUndefined nat sample_host 0 1
                (VObj {[ "getTemplate" := VFun "getTemplate" ∅ ]})
                "getTemplate" ∅ eq_refl eq_refl) as [Hrun _].
  rewrite Hrun. reflexivity.
Defined.

(** * Further properties of the factory *)

(** ** Traces of the four strategies *)

Lemma fromString_trace {S : Type} (h : handler S) (template params : value)
  (s : S) :
  let tr := trace (run h (fromString template params) s) in
  filter (fun c => is_http_get c = true) tr = [] /\
  filter (fun c => is_injection c = true) tr = [] /\
  length tr <= 1.
Proof.
  destruct template; simpl; try (repeat split; (reflexivity || lia)).
  destruct (h value (Call f VUndefined [params]) s) as [[x | e] s1]; simpl;
    repeat split; (reflexivity || lia).
Qed.

Lemma resolve_url_shape {S : Type} (h : handler S) (url params : value)
  (s : S) :
  let tr := trace (resolve_url h url params s) in
  filter (fun c => is_injection c = true) tr = [] /\
  length (filter (fun c => is_call c = true) tr) <= 1 /\
  length tr <= 1 /\
  (isFunction url = false -> tr = []).
Proof.
  unfold resolve_url.
  destruct url; simpl; try (repeat split; (reflexivity || lia || discriminate)).
  destruct (h value (Call f VUndefined [params]) s) as [[x | e] s1]; simpl;
    repeat split; (reflexivity || lia || discriminate).
Qed.

(** What [fromUrl] does once the URL is known. *)
Lemma fromUrl_tail_shape {S : Type} (h : handler S)
  (templateCache u : value) (s : S) :
  let o :=
    run h (if looseNull u
           then Ret VNull
           else let* pending :=
                  trigger (HttpGet u (cached templateCache)) in
                Ret (then_ pending ResponseData)) s in
  filter (fun c => is_injection c = true) (trace o) = [] /\
  filter (fun c => is_call c = true) (trace o) = [] /\
  length (trace o) <= 1 /\
  (result o = Normal VNull \/
   (exists e, result o = Thrown e) \/
   exists pending, result o = Normal (VPromise (PThen pending ResponseData))).
Proof.
  destruct (looseNull u); simpl.
  - repeat split; try (reflexivity || lia). left. reflexivity.
  - destruct (h promise (HttpGet u (cached templateCache)) s)
      as [[pending | e] s1]; simpl;
      repeat split; try (reflexivity || lia).
    + right. right. exists pending. reflexivity.
    + right. left. exists e. reflexivity.
Qed.

Lemma fromUrl_shape {S : Type} (h : handler S)
  (templateCache url params : value) (s : S) :
  let o := run h (fromUrl templateCache url params) s in
  filter (fun c => is_injection c = true) (trace o) = [] /\
  length (filter (fun c => is_call c = true) (trace o)) <= 1 /\
  length (filter (fun c => is_http_get c = true) (trace o)) <= 1 /\
  length (trace o) <= 2 /\
  (isFunction url = false ->
   filter (fun c => is_call c = true) (trace o) = []) /\
  (result o = Normal VNull \/
   (exists e, result o = Thrown e) \/
   exists pending, result o = Normal (VPromise (PThen pending ResponseData))).
Proof.
  cbv zeta. rewrite fromUrl_run.
  destruct (resolve_url_shape h url params s) as (Hinj & Hcall & Hlen & Hnf).
  pose proof (resolve_url_trace h url params s) as Hget.
  destruct (resolve_url h url params s) as [[u | e] s1 t];
    cbn [result final trace] in *.
  - pose proof (fromUrl_tail_shape h templateCache u s1) as T. cbv zeta in T.
    set (tail := run h _ s1) in *.
    destruct T as (Tinj & Tcall & Tlen & Tres).
    pose proof (length_filter (fun c => is_http_get c = true) (trace tail))
      as Tget.
    cbn [result final trace].
    rewrite !filter_app, !length_app, Hinj, Tinj, Tcall, Hget, app_nil_r.
    split; [reflexivity | ].
    split; [simpl; lia | ].
    split; [simpl; lia | ].
    split; [lia | ].
    split; [ | exact Tres].
    intros Hf. rewrite (Hnf Hf). reflexivity.
  - rewrite Hinj, Hget.
    split; [reflexivity | ].
    split; [exact Hcall | ].
    split; [simpl; lia | ].
    split; [lia | ].
    split; [ | right; left; exists e; reflexivity].
    intros Hf. rewrite (Hnf Hf). reflexivity.
Qed.

Lemma fromProvider_trace {S : Type} (h : handler S)
  (provider params locals : value) (s : S) :
  let tr := trace (run h (fromProvider provider params locals) s) in
  filter (fun c => is_http_get c = true) tr = [] /\ length tr <= 1.
Proof.
  cbv zeta. unfold fromProvider. rewrite run_trigger. simpl.
  split; [reflexivity | lia].
Qed.

Lemma fromService_trace {S : Type} (h : handler S)
  (serviceName params locals : value) (s : S) :
  let tr := trace (run h (fromService serviceName params locals) s) in
  filter (fun c => is_http_get c = true) tr = [] /\ length tr <= 2.
Proof.
  cbv zeta. unfold fromService, injector_invoke_annotated, call_method.
  simpl. destruct (h value (InjectorGet serviceName) s) as [[svc | e] s1];
    simpl; [ | split; [reflexivity | lia]].
  destruct (get svc "getTemplate") as [m | e]; simpl;
    [ | split; [reflexivity | lia]].
  destruct m; simpl; try (split; [reflexivity | lia]).
  destruct (h value (Call f svc [params; locals]) s1) as [[x | e] s2];
    simpl; split; (reflexivity || lia).
Qed.

(** A function that is used as a configuration is read like an object. *)
Lemma fromConfig_function_config (templateCache : value) (f : string)
  (o : gmap string value) (params locals : value) :
  fromConfig templateCache (VFun f o) params locals =
    fromConfig templateCache (VObj o) params locals.
Proof. reflexivity. Qed.

(** ** What a configuration can make the factory do *)

(** X1: a configuration that is [null] or [undefined] makes [fromConfig]
    throw a TypeError before the host is asked anything; a configuration
    that is a boolean, a number or a string has none of the four fields,
    and [fromConfig] returns [null]. *)
Theorem fromConfig_config_not_an_object (templateCache : value)
  (config params locals : value) :
  (looseNull config = true ->
   fromConfig templateCache config params locals = Throw TypeError /\
   forall (S : Type) (h : handler S) (s : S),
     run h (fromConfig templateCache config params locals) s =
       Outcome (Thrown TypeError) s [])
  /\
  (isPrimitive config = true ->
   fromConfig templateCache config params locals = Ret VNull).
Proof.
  split.
  - intros Hnull.
    assert (Hprog : fromConfig templateCache config params locals =
              Throw TypeError)
      by (destruct config; try discriminate; reflexivity).
    split; [exact Hprog | ]. intros S h s. rewrite Hprog. reflexivity.
  - intros Hprim. destruct config; try discriminate; reflexivity.
Qed.

Lemma fromConfig_config_not_an_object_witness :
  run sample_host (fromConfig sample_cache VUndefined sample_params VNull) 0
    = Outcome (Thrown TypeError) 0 []
  /\
  fromConfig sample_cache (VStr "<p>hi</p>") sample_params VNull = Ret VNull.
Proof.
  pose proof (fromConfig_config_not_an_object sample_cache VUndefined
                sample_params VNull) as [Hnull _].
  pose proof (fromConfig_config_not_an_object sample_cache
                (VStr "<p>hi</p>") sample_params VNull) as [_ Hprim].
  split.
  - exact (proj2 (Hnull eq_refl) nat sample_host 0).
  - exact (Hprim eq_refl).
Defined.

(** X2: [locals] only reaches the provider and the service strategy.  When
    template or templateUrl is defined on the configuration, [fromConfig]
    is the same program for every [locals]. *)
Theorem fromConfig_ignores_locals (templateCache : value)
  (o : gmap string value) (params locals locals' : value) :
  isDefined (field o "template") = true \/
  isDefined (field o "templateUrl") = true ->
  fromConfig templateCache (VObj o) params locals =
    fromConfig templateCache (VObj o) params locals'.
Proof.
  intros Hdef. unfold fromConfig. simpl.
  destruct (isDefined (field o "template")); [reflexivity | ].
  destruct (isDefined (field o "templateUrl")); [reflexivity | ].
  destruct Hdef; discriminate.
Qed.

Lemma fromConfig_ignores_locals_witness :
  fromConfig sample_cache
    (VObj {[ "templateUrl" := VStr "/partials/a.html";
             "templateProvider" := VFun "provider" ∅ ]})
    sample_params VUndefined
  = fromConfig sample_cache
      (VObj {[ "templateUrl" := VStr "/partials/a.html";
               "templateProvider" := VFun "provider" ∅ ]})
      sample_params (VObj {[ "user" := VStr "ann" ]}).
Proof.
  apply fromConfig_ignores_locals. right. reflexivity.
Defined.

(** X3: [params] only reaches a template or url that is a function.  When
    the field that decides is template or templateUrl and its value is
    not a function, the program [fromConfig] builds depends on the
    configuration alone (and on the template cache), not on [params] or
    [locals]; the same holds of [fromString] and [fromUrl] on their
    own. *)
Theorem fromConfig_static_ignores_params (templateCache : value)
  (o : gmap string value) (params params' locals locals' : value) :
  (forall template : value,
     isFunction template = false ->
     fromString template params = fromString template params')
  /\
  (forall url : value,
     isFunction url = false ->
     fromUrl templateCache url params = fromUrl templateCache url params')
  /\
  ((isDefined (field o "template") = true /\
    isFunction (field o "template") = false) \/
   (isDefined (field o "template") = false /\
    isDefined (field o "templateUrl") = true /\
    isFunction (field o "templateUrl") = false) ->
   fromConfig templateCache (VObj o) params locals =
     fromConfig templateCache (VObj o) params' locals').
Proof.
  assert (Hs : forall template : value,
            isFunction template = false ->
            fromString template params = fromString template params').
  { intros template Hf. unfold fromString. rewrite Hf. reflexivity. }
  assert (Hu : forall url : value,
            isFunction url = false ->
            fromUrl templateCache url params =
              fromUrl templateCache url params').
  { intros url Hf. unfold fromUrl. rewrite Hf. reflexivity. }
  split; [exact Hs | split; [exact Hu | ]].
  intros [[Ht Hf] | (Ht & Hd & Hf)]; unfold fromConfig; simpl; rewrite Ht.
  - apply Hs, Hf.
  - rewrite Hd. apply Hu, Hf.
Qed.

Lemma fromConfig_static_ignores_params_witness :
  fromConfig sample_cache (VObj {[ "templateUrl" := VStr "/partials/a.html" ]})
    sample_params VUndefined
  = fromConfig sample_cache
      (VObj {[ "templateUrl" := VStr "/partials/a.html" ]})
      (VObj {[ "id" := VNum 8 ]}) (VObj ∅).
Proof.
  apply (fromConfig_static_ignores_params sample_cache
           {[ "templateUrl" := VStr "/partials/a.html" ]}).
  right. repeat split; reflexivity.
Defined.

(** X4: the template cache is only ever fetched into by the URL strategy.
    On every host, a run of [fromConfig] on a configuration object holds
    no [$http.get] when template is defined or templateUrl is not, and
    at most one otherwise. *)
Theorem fromConfig_fetch_only_by_url (templateCache : value)
  (o : gmap string value) (params locals : value)
  (S : Type) (h : handler S) (s : S) :
  let tr :=
    trace (run h (fromConfig templateCache (VObj o) params locals) s) in
  length (filter (fun c => is_http_get c = true) tr) <= 1 /\
  (isDefined (field o "template") = true \/
   isDefined (field o "templateUrl") = false ->
   filter (fun c => is_http_get c = true) tr = []).
Proof.
  cbv zeta. unfold fromConfig. simpl.
  destruct (isDefined (field o "template")) eqn:Ht.
  { destruct (fromString_trace h (field o "template") params s)
      as (Hget & _ & _).
    cbv zeta in Hget. rewrite Hget. simpl. split; [lia | reflexivity]. }
  destruct (isDefined (field o "templateUrl")) eqn:Hu.
  { destruct (fromUrl_shape h templateCache (field o "templateUrl") params s)
      as (_ & _ & Hget & _).
    split; [exact Hget | ]. intros [Hd | Hd]; discriminate. }
  destruct (isDefined (field o "templateProvider")).
  { destruct (fromProvider_trace h (field o "templateProvider") params
                locals s) as (Hget & _).
    cbv zeta in Hget. rewrite Hget. simpl. split; [lia | reflexivity]. }
  destruct (isDefined (field o "templateService")).
  { destruct (fromService_trace h (field o "templateService") params
                locals s) as (Hget & _).
    cbv zeta in Hget. rewrite Hget. simpl. split; [lia | reflexivity]. }
  simpl. split; [lia | reflexivity].
Qed.

Lemma fromConfig_fetch_only_by_url_witness :
  filter (fun c => is_http_get c = true)
    (trace (run sample_host
              (fromConfig sample_cache
                 (VObj {[ "templateService" := VStr "templates" ]})
                 sample_params VUndefined) 0)) = [].
Proof.
  apply (fromConfig_fetch_only_by_url sample_cache
           {[ "templateService" := VStr "templates" ]}).
  right. reflexivity.
Defined.

(** X5: the injector is only used by the provider and the service
    strategy.  On every host, a run of [fromConfig] on a configuration
    object on which template or templateUrl is defined sends nothing to
    [$injector]. *)
Theorem fromConfig_injector_unused (templateCache : value)
  (o : gmap string value) (params locals : value)
  (S : Type) (h : handler S) (s : S) :
  isDefined (field o "template") = true \/
  isDefined (field o "templateUrl") = true ->
  filter (fun c => is_injection c = true)
    (trace (run h (fromConfig templateCache (VObj o) params locals) s)) = [].
Proof.
  intros Hdef. unfold fromConfig. simpl.
  destruct (isDefined (field o "template")).
  { destruct (fromString_trace h (field o "template") params s)
      as (_ & Hinj & _). exact Hinj. }
  destruct (isDefined (field o "templateUrl")).
  { destruct (fromUrl_shape h templateCache (field o "templateUrl") params s)
      as (Hinj & _). exact Hinj. }
  destruct Hdef; discriminate.
Qed.

Lemma fromConfig_injector_unused_witness :
  filter (fun c => is_injection c = true)
    (trace (run sample_host
              (fromConfig sample_cache
                 (VObj {[ "templateUrl" := VFun "pick" ∅;
                          "templateService" := VStr "templates" ]})
                 sample_params VUndefined) 0)) = [].
Proof.
  apply (fromConfig_injector_unused sample_cache
           {[ "templateUrl" := VFun "pick" ∅;
              "templateService" := VStr "templates" ]}).
  right. reflexivity.
Defined.

(** X6: whatever the configuration is and however the host answers,
    [fromConfig] asks the host at most two things. *)
Theorem fromConfig_at_most_two_events (templateCache : value)
  (config params locals : value) (S : Type) (h : handler S) (s : S) :
  length (trace (run h (fromConfig templateCache config params locals) s))
    <= 2.
Proof.
  assert (Hobj : forall o : gmap string value,
            length (trace (run h (fromConfig templateCache (VObj o) params
                                    locals) s)) <= 2).
  { intros o. unfold fromConfig. simpl.
    destruct (isDefined (field o "template")).
    { destruct (fromString_trace h (field o "template") params s)
        as (_ & _ & Hlen). cbv zeta in Hlen. lia. }
    destruct (isDefined (field o "templateUrl")).
    { destruct (fromUrl_shape h templateCache (field o "templateUrl")
                  params s) as (_ & _ & _ & Hlen & _). exact Hlen. }
    destruct (isDefined (field o "templateProvider")).
    { destruct (fromProvider_trace h (field o "templateProvider") params
                  locals s) as (_ & Hlen). cbv zeta in Hlen. lia. }
    destruct (isDefined (field o "templateService")).
    { destruct (fromService_trace h (field o "templateService") params
                  locals s) as (_ & Hlen). exact Hlen. }
    simpl. lia. }
  destruct config; try (simpl; lia).
  - apply Hobj.
  - rewrite fromConfig_function_config. apply Hobj.
Qed.

(** X7: a templateUrl that is defined but comes out as [null] or
    [undefined] ends the resolution.  With template undefined,
    [fromConfig] returns [null] after the first step of [fromUrl], and the
    provider and the service of the same configuration are never
    reached. *)
Theorem fromConfig_null_url_masks_later_fields (templateCache : value)
  (o : gmap string value) (params locals : value)
  (S : Type) (h : handler S) (s s1 : S) (t : list performed) (u : value) :
  isDefined (field o "template") = false ->
  isDefined (field o "templateUrl") = true ->
  resolve_url h (field o "templateUrl") params s = Outcome (Normal u) s1 t ->
  looseNull u = true ->
  run h (fromConfig templateCache (VObj o) params locals) s =
    Outcome (Normal VNull) s1 t
  /\ filter (fun c => is_injection c = true) t = []
  /\ filter (fun c => is_http_get c = true) t = [].
Proof.
  intros Ht Hu Hurl Hnull. split; [ | split].
  - unfold fromConfig. simpl. rewrite Ht, Hu, fromUrl_run, Hurl. simpl.
    rewrite Hnull. simpl. rewrite app_nil_r. reflexivity.
  - destruct (resolve_url_shape h (field o "templateUrl") params s)
      as (Hinj & _). rewrite Hurl in Hinj. exact Hinj.
  - pose proof (resolve_url_trace h (field o "templateUrl") params s) as Hg.
    rewrite Hurl in Hg. exact Hg.
Qed.

Lemma fromConfig_null_url_masks_later_fields_witness :
  run sample_host
    (fromConfig sample_cache
       (VObj {[ "templateUrl" := VNull;
                "templateProvider" := VFun "provider" ∅;
                "templateService" := VStr "templates" ]})
       sample_params VUndefined) 0
  = Outcome (Normal VNull) 0 [].
Proof.
  exact (proj1 (fromConfig_null_url_masks_later_fields sample_cache
           {[ "templateUrl" := VNull;
              "templateProvider" := VFun "provider" ∅;
              "templateService" := VStr "templates" ]}
           sample_params VUndefined nat sample_host 0 0 [] VNull
           eq_refl eq_refl eq_refl eq_refl)).
Defined.

(** ** Failures and bounds of the URL strategy *)

(** X8: what the url function throws, [fromUrl] throws: the run ends with
    that exception right after the call, and nothing is fetched. *)
Theorem fromUrl_url_function_throws (templateCache : value)
  (url params : value) (S : Type) (h : handler S) (s s1 : S)
  (t : list performed) (e : value) :
  resolve_url h url params s = Outcome (Thrown e) s1 t ->
  run h (fromUrl templateCache url params) s = Outcome (Thrown e) s1 t /\
  filter (fun c => is_http_get c = true) t = [].
Proof.
  intros Hurl. split.
  - rewrite fromUrl_run, Hurl. reflexivity.
  - pose proof (resolve_url_trace h url params s) as Hg.
    rewrite Hurl in Hg. exact Hg.
Qed.

Lemma fromUrl_url_function_throws_witness :
  run (constant_host (Thrown failure) (Normal (PHost 7)))
    (fromUrl sample_cache (VFun "pick" ∅) sample_params) 0
  = Outcome (Thrown failure) 1
      [Performed (Call "pick" VUndefined [sample_params])].
Proof.
  exact (proj1 (fromUrl_url_function_throws sample_cache (VFun "pick" ∅)
           sample_params nat
           (constant_host (Thrown failure) (Normal (PHost 7))) 0 1
           [Performed (Call "pick" VUndefined [sample_params])] failure
           eq_refl)).
Defined.

(** X9: what [$http.get] throws, [fromUrl] throws, and there is no second
    attempt: the fetch that failed is the last event of the run and its
    only fetch. *)
Theorem fromUrl_fetch_throws (templateCache : value) (url params : value)
  (S : Type) (h : handler S) (s s1 s2 : S) (t : list performed)
  (u e : value) :
  resolve_url h url params s = Outcome (Normal u) s1 t ->
  looseNull u = false ->
  h promise (HttpGet u (cached templateCache)) s1 = (Thrown e, s2) ->
  run h (fromUrl templateCache url params) s =
    Outcome (Thrown e) s2
      (t ++ [Performed (HttpGet u (cached templateCache))])
  /\
  filter (fun c => is_http_get c = true)
    (trace (run h (fromUrl templateCache url params) s)) =
    [Performed (HttpGet u (cached templateCache))].
Proof.
  intros Hurl Hnn Hget.
  assert (Hrun : run h (fromUrl templateCache url params) s =
            Outcome (Thrown e) s2
              (t ++ [Performed (HttpGet u (cached templateCache))])).
  { rewrite fromUrl_run, Hurl. simpl. rewrite Hnn. simpl.
    rewrite Hget. reflexivity. }
  split; [exact Hrun | ].
  rewrite Hrun. simpl. rewrite filter_app.
  pose proof (resolve_url_trace h url params s) as Ht.
  rewrite Hurl in Ht. simpl in Ht. rewrite Ht. reflexivity.
Qed.

Lemma fromUrl_fetch_throws_witness :
  run (constant_host (Normal VNull) (Thrown failure))
    (fromUrl sample_cache (VStr "/partials/a.html") sample_params) 0
  = Outcome (Thrown failure) 1
      [Performed (HttpGet (VStr "/partials/a.html") (cached sample_cache))].
Proof.
  exact (proj1 (fromUrl_fetch_throws sample_cache (VStr "/partials/a.html")
           sample_params nat
           (constant_host (Normal VNull) (Thrown failure)) 0 0 1 []
           (VStr "/partials/a.html") failure eq_refl eq_refl eq_refl)).
Defined.

(** X10: on every host [fromUrl] calls the url function at most once (a
    function that the url function returns is not called again), never
    calls a url that is not a function, fetches at most once and never
    uses the injector. *)
Theorem fromUrl_bounded (templateCache : value) (url params : value)
  (S : Type) (h : handler S) (s : S) :
  let tr := trace (run h (fromUrl templateCache url params) s) in
  length (filter (fun c => is_call c = true) tr) <= 1 /\
  length (filter (fun c => is_http_get c = true) tr) <= 1 /\
  filter (fun c => is_injection c = true) tr = [] /\
  (isFunction url = false -> filter (fun c => is_call c = true) tr = []).
Proof.
  destruct (fromUrl_shape h templateCache url params s)
    as (Hinj & Hcall & Hget & _ & Hnf & _).
  cbv zeta in *. auto.
Qed.

Lemma fromUrl_bounded_witness :
  filter (fun c => is_call c = true)
    (trace (run sample_host
              (fromUrl sample_cache (VStr "/partials/a.html")
                 sample_params) 0)) = [].
Proof.
  apply (fromUrl_bounded sample_cache (VStr "/partials/a.html")
           sample_params nat sample_host 0).
  reflexivity.
Defined.

(** X11: what [fromUrl] returns is never a string: it is [null], or the
    promise made by [.then] from the very promise the host answered the
    fetch with, and not that promise itself.  The returned promise has no
    error callback: it is rejected with the reason the fetch is rejected
    with; it is rejected with a TypeError when the fetch is fulfilled with
    [null] or [undefined]; and it is fulfilled with [undefined] when the
    response object has no [data]. *)
Theorem fromUrl_returns_null_or_derived_promise (templateCache : value)
  (url params : value) (St : Type) (h : handler St) (s : St) (v : value) :
  result (run h (fromUrl templateCache url params) s) = Normal v ->
  (forall text : string, v <> VStr text) /\
  (v = VNull \/
   exists (u : value) (pending : promise),
     result (resolve_url h url params s) = Normal u /\
     (h promise (HttpGet u (cached templateCache))
        (final (resolve_url h url params s))).1 = Normal pending /\
     v = VPromise (PThen pending ResponseData) /\
     v <> VPromise pending /\
     forall (fuel : nat) (host : nat -> settlement),
       (forall reason : value,
          settle fuel host pending = Some (Rejected reason) ->
          settle (S fuel) host (PThen pending ResponseData) =
            Some (Rejected reason)) /\
       (forall response : value,
          settle fuel host pending = Some (Fulfilled response) ->
          looseNull response = true ->
          settle (S fuel) host (PThen pending ResponseData) =
            Some (Rejected TypeError)) /\
       (forall response : gmap string value,
          settle fuel host pending = Some (Fulfilled (VObj response)) ->
          response !! "data" = None ->
          settle (S fuel) host (PThen pending ResponseData) =
            Some (Fulfilled VUndefined))).
Proof.
  intros Hres. rewrite fromUrl_run in Hres.
  destruct (resolve_url h url params s) as [[u | e] s1 t];
    cbn [result final trace] in *; [ | discriminate].
  destruct (looseNull u) eqn:Hnn; simpl in Hres.
  { injection Hres as <-. split; [discriminate | left; reflexivity]. }
  destruct (h promise (HttpGet u (cached templateCache)) s1)
    as [[pending | e] s2] eqn:Hget; simpl in Hres; [ | discriminate].
  injection Hres as <-. split; [discriminate | right].
  exists u, pending.
  split; [reflexivity | ].
  split; [rewrite Hget; reflexivity | ].
  split; [reflexivity | ].
  split.
  { unfold then_. intros Heq. injection Heq as Heq.
    exact (then_is_new pending ResponseData Heq). }
  intros fuel host. split; [ | split].
  - intros reason Hrej. cbn [settle]. rewrite Hrej. reflexivity.
  - intros response Hful Hnull. cbn [settle]. rewrite Hful.
    destruct response; try discriminate; reflexivity.
  - intros response Hful Hnone. cbn [settle]. rewrite Hful.
    cbn [closure_apply get]. unfold field. rewrite Hnone. reflexivity.
Qed.

Lemma fromUrl_returns_null_or_derived_promise_witness :
  exists pending : promise,
    (sample_host promise
       (HttpGet (VStr "/partials/a.html") (cached sample_cache)) 0).1 =
      Normal pending /\
    VPromise (PThen (PHost 7) ResponseData) =
      VPromise (PThen pending ResponseData).
Proof.
  destruct (fromUrl_returns_null_or_derived_promise sample_cache
              (VStr "/partials/a.html") sample_params nat sample_host 0
              (VPromise (PThen (PHost 7) ResponseData)) eq_refl)
    as [_ [Hnull | (u & pending & Hu & Hp & Hv & _)]].
  - discriminate Hnull.
  - injection Hu as <-. exists pending. split; [exact Hp | exact Hv].
Defined.

(** ** Edges of the provider and the service strategy *)

(** X12: the locals [fromProvider] gives the injector are never falsy.
    Every falsy [locals] ([null], [false], [0], the empty string as well
    as [undefined]) is replaced by [{ params: params }], whose [params] is
    the argument itself. *)
Theorem fromProvider_locals_never_falsy (provider params locals : value)
  (S : Type) (h : handler S) (s : S) :
  exists supplied : value,
    trace (run h (fromProvider provider params locals) s) =
      [Performed (InjectorInvoke provider VNull supplied)] /\
    truthy supplied = true /\
    (truthy locals = false ->
     supplied = default_locals params /\
     get supplied "params" = Normal params).
Proof.
  exists (or_else locals (default_locals params)). split; [ | split].
  - unfold fromProvider. rewrite run_trigger. reflexivity.
  - unfold or_else. destruct (truthy locals) eqn:Ht; [exact Ht | reflexivity].
  - intros Hf. unfold or_else. rewrite Hf. split; reflexivity.
Qed.

Lemma fromProvider_locals_never_falsy_witness :
  trace (run sample_host
           (fromProvider (VFun "provider" ∅) sample_params (VStr "")) 0) =
    [Performed (InjectorInvoke (VFun "provider" ∅) VNull
                  (default_locals sample_params))].
Proof.
  destruct (fromProvider_locals_never_falsy (VFun "provider" ∅)
              sample_params (VStr "") nat sample_host 0)
    as (supplied & Htr & _ & Hdef).
  destruct (Hdef eq_refl) as [-> _]. exact Htr.
Defined.

(** X13: when the injector cannot give the service and throws,
    [fromService] throws the same; the lookup is the only event and
    [getTemplate] is never called. *)
Theorem fromService_lookup_throws (serviceName params locals : value)
  (S : Type) (h : handler S) (s s1 : S) (e : value) :
  h value (InjectorGet serviceName) s = (Thrown e, s1) ->
  run h (fromService serviceName params locals) s =
    Outcome (Thrown e) s1 [Performed (InjectorGet serviceName)].
Proof.
  intros Hget. unfold fromService, injector_invoke_annotated. simpl.
  rewrite Hget. reflexivity.
Qed.

Lemma fromService_lookup_throws_witness :
  run (constant_host (Thrown failure) (Normal (PHost 7)))
    (fromService (VStr "templates") sample_params VUndefined) 0
  = Outcome (Thrown failure) 1 [Performed (InjectorGet (VStr "templates"))].
Proof.
  exact (fromService_lookup_throws (VStr "templates") sample_params
           VUndefined nat
           (constant_host (Thrown failure) (Normal (PHost 7))) 0 1 failure
           eq_refl).
Defined.

(** X14: when the service the injector gives is [null] or [undefined], or
    its [getTemplate] is not a function, [fromService] throws a TypeError
    after the lookup and calls nothing. *)
Theorem fromService_without_getTemplate (serviceName params locals : value)
  (S : Type) (h : handler S) (s s1 : S) (service : value) :
  h value (InjectorGet serviceName) s = (Normal service, s1) ->
  (forall (g : string) (fields : gmap string value),
     get service "getTemplate" <> Normal (VFun g fields)) ->
  run h (fromService serviceName params locals) s =
    Outcome (Thrown TypeError) s1 [Performed (InjectorGet serviceName)].
Proof.
  intros Hget Hno. unfold fromService, injector_invoke_annotated, call_method.
  simpl. rewrite Hget. simpl.
  destruct (get service "getTemplate") as [m | e] eqn:Hm; simpl.
  - destruct m; try reflexivity. exfalso. exact (Hno f fields eq_refl).
  - assert (e = TypeError) as ->
      by (destruct service; simpl in Hm; congruence).
    reflexivity.
Qed.

Lemma fromService_without_getTemplate_witness :
  run (constant_host (Normal (VObj {[ "render" := VFun "render" ∅ ]}))
         (Normal (PHost 7)))
    (fromService (VStr "templates") sample_params VUndefined) 0
  = Outcome (Thrown TypeError) 1 [Performed (InjectorGet (VStr "templates"))].
Proof.
  apply (fromService_without_getTemplate (VStr "templates") sample_params
           VUndefined nat
           (constant_host (Normal (VObj {[ "render" := VFun "render" ∅ ]}))
              (Normal (PHost 7))) 0 1
           (VObj {[ "render" := VFun "render" ∅ ]})).
  - reflexivity.
  - intros g fields. discriminate.
Defined.
